(** * The registration route handler ([app/api/auth/register/route.ts])

    A shallow embedding of the [POST] handler and of the three
    collaborators it awaits: the request body parser, the Prisma user
    model (the Identity Store) and bcrypt (the Password Hasher).  The
    handler runs in a small monad that threads the world (store rows, the
    log of store operations, the server console) and lets a computation
    complete normally or throw, so that [try]/[catch] is written as in
    the source. *)

From Stdlib Require Import String Ascii List Bool Arith Lia QArith.
Import ListNotations.
Local Open Scope nat_scope.
Local Open Scope string_scope.
Local Open Scope bool_scope.

(** ** JavaScript values reaching the handler *)

(** What [JSON.parse] can produce.  A number carries the double it was
    parsed to, as the rational it denotes (an overflowing literal parses
    to an infinity, which behaves here as every other nonzero number).
    An object carries its own properties after parsing. *)
#[local] Unset Elimination Schemes.
Inductive Json : Type :=
| JNull
| JBool (b : bool)
| JNum (q : Q)
| JStr (s : string)
| JArr (items : list Json)
| JObj (props : list (string * Json)).
#[local] Set Elimination Schemes.

(** A destructured binding: [None] is [undefined]. *)
Definition JsValue : Type := option Json.

(** An [Error] instance as the [catch] block reads it: [error.name],
    [error.message] and [error.constructor.name]. *)
Record JsError : Type := mkError {
  err_name : string;
  err_message : string;
  err_constructor_name : string
}.

(** ToBoolean. *)
Definition truthy (v : JsValue) : bool :=
  match v with
  | None => false
  | Some JNull => false
  | Some (JBool b) => b
  | Some (JNum q) => negb (Qeq_bool q 0)
  | Some (JStr s) => negb (String.eqb s EmptyString)
  | Some (JArr _) => true
  | Some (JObj _) => true
  end.

Definition js_not (v : JsValue) : bool := negb (truthy v).

Definition string_truthy (s : string) : bool := negb (String.eqb s EmptyString).

(** [s.startsWith(p)] and [s.includes(sub)]. *)
Definition startsWith (s p : string) : bool := String.prefix p s.

Fixpoint includes (s sub : string) : bool :=
  String.prefix sub s ||
  match s with
  | EmptyString => false
  | String _ rest => includes rest sub
  end.

(** Property read [v[k]] on a parsed JSON value other than [null].  Only
    objects have own properties called [name], [email] or [password]; no
    prototype of a string, number, boolean or array defines them. *)
Fixpoint assoc (k : string) (props : list (string * Json)) : JsValue :=
  match props with
  | [] => None
  | (k', v) :: rest => if String.eqb k' k then Some v else assoc k rest
  end.

Definition get_prop (v : Json) (k : string) : JsValue :=
  match v with
  | JObj props => assoc k props
  | _ => None
  end.

(** ** Completions and the handler monad *)

Inductive Completion (A : Type) : Type :=
| Normal (a : A)
| Throw (e : JsError).
Arguments Normal {A} a.
Arguments Throw {A} e.

(** ** The Identity Store *)

(** Modelled from the spec: the [User] model of the Prisma schema, which
    is not part of the sources.  An Account has a system-generated
    identifier, a display name, a unique email address and a password
    hash. *)
Record User : Type := mkUser {
  user_id : nat;
  user_name : string;
  user_email : string;
  user_hashedPassword : string
}.

(** The [data] object handed to [prisma.user.create]. *)
Record UserCreateInput : Type := mkInput {
  data_name : JsValue;
  data_email : JsValue;
  data_hashedPassword : string
}.

Inductive StoreOp : Type :=
| OpFindUnique (where_email : JsValue)
| OpCreate (data : UserCreateInput).

Record World : Type := mkWorld {
  db : list User;
  store_log : list StoreOp;
  console : list JsError
}.

(** What the surroundings of one invocation decide: how [req.json()]
    settles, whether a store call fails on its own account (and with
    which error), which rows other sessions commit between this
    invocation's read and its insert, the salt bcrypt draws, and the
    text of the client's message when it refuses the arguments of a
    call (the message echoes them). *)
Record Env : Type := mkEnv {
  request_body : Completion Json;
  find_fault : option JsError;
  concurrent : list (string * string * string);
  create_fault : option JsError;
  bcrypt_salt : string;
  validation_text : StoreOp -> string
}.

Definition Async (A : Type) : Type := World -> Completion A * World.

Definition ret {A} (a : A) : Async A := fun w => (Normal a, w).

Definition throw {A} (e : JsError) : Async A := fun w => (Throw e, w).

Definition bind {A B} (m : Async A) (k : A -> Async B) : Async B :=
  fun w =>
    match m w with
    | (Normal a, w') => k a w'
    | (Throw e, w') => (Throw e, w')
    end.

Definition try_catch {A} (m : Async A) (handler : JsError -> Async A) : Async A :=
  fun w =>
    match m w with
    | (Normal a, w') => (Normal a, w')
    | (Throw e, w') => handler e w'
    end.

Declare Scope async_scope.
Delimit Scope async_scope with async.
Notation "x <- m ;; k" := (bind m (fun x => k))
  (at level 100, m at next level, right associativity) : async_scope.
Notation "m ;;; k" := (bind m (fun _ => k))
  (at level 100, right associativity) : async_scope.
Local Open Scope async_scope.

(** *** Rows, lookup and insert *)

(** Modelled from the spec: the store's lookup by [emailAddress].  The
    column is compared as the stored text, with no folding. *)
Definition find_by_email (e : string) (rows : list User) : option User :=
  find (fun u => String.eqb (user_email u) e) rows.

Definition fresh_id (rows : list User) : nat :=
  S (list_max (map user_id rows)).

(** Modelled from the spec: the store's insert under the uniqueness
    constraint on [emailAddress]; [None] is the constraint violation. *)
Definition insert_row (n e h : string) (rows : list User) : option (list User) :=
  match find_by_email e rows with
  | Some _ => None
  | None => Some (rows ++ [mkUser (fresh_id rows) n e h])%list
  end.

(** Inserts of other sessions, each subject to the same constraint. *)
Fixpoint commit_concurrent (cs : list (string * string * string))
         (rows : list User) : list User :=
  match cs with
  | [] => rows
  | (n, e, h) :: rest =>
      match insert_row n e h rows with
      | Some rows' => commit_concurrent rest rows'
      | None => commit_concurrent rest rows
      end
  end.

Definition count_email (e : string) (rows : list User) : nat :=
  length (filter (fun u => String.eqb (user_email u) e) rows).

Definition unique_emails (rows : list User) : Prop :=
  NoDup (map user_email rows).

(** *** Errors of the collaborators

    The errors the client library, the runtime and bcrypt raise, with the
    three properties the [catch] block reads.  The text of a validation
    error depends on the refused arguments and comes from the
    surroundings; the other texts are the libraries' own, without the
    call-site prefix the client adds. *)

Definition PrismaClientValidationError (text : string) : JsError :=
  mkError "PrismaClientValidationError" text "PrismaClientValidationError".

(** The known-request error with code P2002. *)
Definition unique_constraint_error : JsError :=
  mkError "PrismaClientKnownRequestError"
          "Unique constraint failed on the fields: (`email`)"
          "PrismaClientKnownRequestError".

Definition destructure_null_error : JsError :=
  mkError "TypeError"
          "Cannot destructure property 'name' of '(intermediate value)' as it is null."
          "TypeError".

Definition bcrypt_missing_error : JsError :=
  mkError "Error" "data and salt arguments required" "Error".

Definition bcrypt_type_error : JsError :=
  mkError "Error"
          "data must be a string or Buffer and salt must either be a salt string or a number of rounds"
          "Error".

(** ** Responses *)

Record ResponseBody : Type := mkBody { message : string }.

Record Response : Type := mkResponse {
  body : ResponseBody;
  status : nat
}.

Definition NextResponse_json (b : ResponseBody) (st : nat) : Response :=
  mkResponse b st.

(** ** The handler *)

Section Handler.

(** bcrypt's key derivation: plaintext, cost and salt give the encoded
    hash.  It is an external primitive; the handler is embedded for any
    such function. *)
Variable bcrypt_kdf : string -> nat -> string -> string.

Definition log_op (op : StoreOp) (w : World) : World :=
  mkWorld (db w) (store_log w ++ [op])%list (console w).

Definition set_db (rows : list User) (w : World) : World :=
  mkWorld rows (store_log w) (console w).

(** [await req.json()] *)
Definition req_json (env : Env) : Async Json :=
  fun w => (request_body env, w).

(** [const { name, email, password } = ...]: destructuring [null]
    throws, every other parsed value is read property by property. *)
Definition destructure (v : Json) : Async (JsValue * JsValue * JsValue) :=
  match v with
  | JNull => throw destructure_null_error
  | _ => ret (get_prop v "name", get_prop v "email", get_prop v "password")
  end.

(** [await prisma.user.findUnique({ where: { email } })].  The call is
    logged, fails with the fault of the surroundings if there is one,
    refuses an argument that is not a string, and otherwise looks the
    address up. *)
Definition prisma_user_findUnique (env : Env) (email : JsValue)
  : Async (option User) :=
  fun w =>
    let w1 := log_op (OpFindUnique email) w in
    match find_fault env with
    | Some e => (Throw e, w1)
    | None =>
        match email with
        | Some (JStr e) => (Normal (find_by_email e (db w1)), w1)
        | _ =>
            (Throw (PrismaClientValidationError
                      (validation_text env (OpFindUnique email))), w1)
        end
    end.

(** [await bcrypt.hash(password, 10)] *)
Definition bcrypt_hash (env : Env) (data : JsValue) (rounds : nat)
  : Async string :=
  match data with
  | Some (JStr s) => ret (bcrypt_kdf s rounds (bcrypt_salt env))
  | None | Some JNull => throw bcrypt_missing_error
  | _ => throw bcrypt_type_error
  end.

(** [await prisma.user.create({ data })].  By the time the insert
    reaches the table, the rows other sessions committed since this
    invocation's read are in it. *)
Definition prisma_user_create (env : Env) (data : UserCreateInput)
  : Async User :=
  fun w =>
    let w1 := log_op (OpCreate data) w in
    match create_fault env with
    | Some e => (Throw e, w1)
    | None =>
        match data_name data, data_email data with
        | Some (JStr n), Some (JStr e) =>
            let rows := commit_concurrent (concurrent env) (db w1) in
            match insert_row n e (data_hashedPassword data) rows with
            | Some rows' =>
                (Normal (mkUser (fresh_id rows) n e (data_hashedPassword data)),
                 set_db rows' w1)
            | None => (Throw unique_constraint_error, set_db rows w1)
            end
        | _, _ =>
            (Throw (PrismaClientValidationError
                      (validation_text env (OpCreate data))), w1)
        end
    end.

(** [console.error('Registration API error:', error)] *)
Definition console_error (label : string) (error : JsError) : Async unit :=
  fun w => (Normal tt, mkWorld (db w) (store_log w) (console w ++ [error])%list).

(** The body of the [try] block. *)
Definition try_block (env : Env) : Async Response :=
  v <- req_json env ;;
  fields <- destructure v ;;
  let '(name, email, password) := fields in
  if js_not name || js_not email || js_not password then
    ret (NextResponse_json (mkBody "All fields are required") 400)
  else
    existingUser <- prisma_user_findUnique env email ;;
    match existingUser with
    | Some _ =>
        ret (NextResponse_json (mkBody "User with this email already exists") 409)
    | None =>
        hashedPassword <- bcrypt_hash env password 10 ;;
        newUser <- prisma_user_create env (mkInput name email hashedPassword) ;;
        ret (NextResponse_json (mkBody "User registered successfully") 201)
    end.

(** The [catch (error)] block. *)
Definition catch_block (error : JsError) : Async Response :=
  console_error "Registration API error:" error ;;;
  if String.eqb (err_name error) "PrismaClientInitializationError"
     || (string_truthy (err_message error)
         && includes (err_message error) "DATABASE_URL")
  then
    ret (NextResponse_json
           (mkBody "Server configuration error: Database connection failed. Please contact support.")
           500)
  else if startsWith (err_constructor_name error) "PrismaClient" then
    ret (NextResponse_json
           (mkBody "A database error occurred during registration.") 500)
  else
    ret (NextResponse_json
           (mkBody "An unexpected error occurred. Please try again later.") 500).

Definition POST (env : Env) : Async Response :=
  try_catch (try_block env) catch_block.

End Handler.

(** ** The handler over a store with its own comparison of addresses *)

(** Modelled from the spec: which stored address the lookup takes to be
    the one asked for is the database's decision (its column type and
    collation), not the handler's, and the spec leaves case-sensitivity
    open.  Below, the store's test [same_address stored asked] is a
    parameter; the handler is the one above, word for word, over such a
    store, and [POST] is its instance at exact comparison. *)
Section StoreComparison.

Variable bcrypt_kdf : string -> nat -> string -> string.
Variable same_address : string -> string -> bool.

Definition find_by_address (e : string) (rows : list User) : option User :=
  find (fun u => same_address (user_email u) e) rows.

Definition insert_row_under (n e h : string) (rows : list User)
  : option (list User) :=
  match find_by_address e rows with
  | Some _ => None
  | None => Some (rows ++ [mkUser (fresh_id rows) n e h])%list
  end.

Fixpoint commit_concurrent_under (cs : list (string * string * string))
         (rows : list User) : list User :=
  match cs with
  | [] => rows
  | (n, e, h) :: rest =>
      match insert_row_under n e h rows with
      | Some rows' => commit_concurrent_under rest rows'
      | None => commit_concurrent_under rest rows
      end
  end.

Definition findUnique_under (env : Env) (email : JsValue)
  : Async (option User) :=
  fun w =>
    let w1 := log_op (OpFindUnique email) w in
    match find_fault env with
    | Some e => (Throw e, w1)
    | None =>
        match email with
        | Some (JStr e) => (Normal (find_by_address e (db w1)), w1)
        | _ =>
            (Throw (PrismaClientValidationError
                      (validation_text env (OpFindUnique email))), w1)
        end
    end.

Definition create_under (env : Env) (data : UserCreateInput) : Async User :=
  fun w =>
    let w1 := log_op (OpCreate data) w in
    match create_fault env with
    | Some e => (Throw e, w1)
    | None =>
        match data_name data, data_email data with
        | Some (JStr n), Some (JStr e) =>
            let rows := commit_concurrent_under (concurrent env) (db w1) in
            match insert_row_under n e (data_hashedPassword data) rows with
            | Some rows' =>
                (Normal (mkUser (fresh_id rows) n e (data_hashedPassword data)),
                 set_db rows' w1)
            | None => (Throw unique_constraint_error, set_db rows w1)
            end
        | _, _ =>
            (Throw (PrismaClientValidationError
                      (validation_text env (OpCreate data))), w1)
        end
    end.

Definition try_block_under (env : Env) : Async Response :=
  v <- req_json env ;;
  fields <- destructure v ;;
  let '(name, email, password) := fields in
  if js_not name || js_not email || js_not password then
    ret (NextResponse_json (mkBody "All fields are required") 400)
  else
    existingUser <- findUnique_under env email ;;
    match existingUser with
    | Some _ =>
        ret (NextResponse_json (mkBody "User with this email already exists") 409)
    | None =>
        hashedPassword <- bcrypt_hash bcrypt_kdf env password 10 ;;
        newUser <- create_under env (mkInput name email hashedPassword) ;;
        ret (NextResponse_json (mkBody "User registered successfully") 201)
    end.

Definition POST_under (env : Env) : Async Response :=
  try_catch (try_block_under env) catch_block.

End StoreComparison.

(** ** Concrete material for runs *)

(** A stand-in key derivation used to run the handler on examples. *)
Definition demo_kdf (pw : string) (rounds : nat) (salt : string) : string :=
  "$2b$10$" ++ salt ++ "." ++ String.string_of_list_ascii (rev (String.list_ascii_of_string pw)).

Definition registration_request (n e p : string) : Json :=
  JObj [("name", JStr n); ("email", JStr e); ("password", JStr p)].

Definition empty_world : World := mkWorld [] [] [].

(** A validation text that echoes nothing of the refused call. *)
Definition plain_text (op : StoreOp) : string :=
  "Invalid value provided. Expected String.".

Definition quiet_env (v : Json) : Env :=
  mkEnv (Normal v) None [] None "N9qo8uLOickgx2ZMRZoMye" plain_text.

Definition sam : Json := registration_request "Sam" "sam@x.com" "pw123456".

(** The six responses of the boundary operation. *)
Definition registered_201 : Response :=
  NextResponse_json (mkBody "User registered successfully") 201.

Definition validation_400 : Response :=
  NextResponse_json (mkBody "All fields are required") 400.

Definition conflict_409 : Response :=
  NextResponse_json (mkBody "User with this email already exists") 409.

Definition configuration_500 : Response :=
  NextResponse_json
    (mkBody "Server configuration error: Database connection failed. Please contact support.")
    500.

Definition database_500 : Response :=
  NextResponse_json (mkBody "A database error occurred during registration.") 500.

Definition unexpected_500 : Response :=
  NextResponse_json (mkBody "An unexpected error occurred. Please try again later.") 500.

Definition enumerated_responses : list Response :=
  [registered_201; validation_400; conflict_409;
   configuration_500; database_500; unexpected_500].

(** The response the [catch] block chooses for [error]. *)
Definition error_response (error : JsError) : Response :=
  if String.eqb (err_name error) "PrismaClientInitializationError"
     || (string_truthy (err_message error)
         && includes (err_message error) "DATABASE_URL")
  then configuration_500
  else if startsWith (err_constructor_name error) "PrismaClient" then database_500
  else unexpected_500.

(** A field that is missing ([undefined]) or the empty string. *)
Definition missing_or_empty (v : JsValue) : Prop :=
  v = None \/ v = Some (JStr EmptyString).

(** The two tests of the first [catch] branch, and the test of the
    second. *)
Definition names_initialization (error : JsError) : bool :=
  String.eqb (err_name error) "PrismaClientInitializationError".

Definition mentions_DATABASE_URL (error : JsError) : bool :=
  includes (err_message error) "DATABASE_URL".

Definition constructed_by_PrismaClient (error : JsError) : bool :=
  startsWith (err_constructor_name error) "PrismaClient".

(** The store is unreachable or misconfigured: its client fails to
    initialise, or reports the missing connection string. *)
Definition store_unavailable (error : JsError) : Prop :=
  err_name error = "PrismaClientInitializationError"
  \/ mentions_DATABASE_URL error = true.

(** The world after the [catch] block has logged [error]. *)
Definition logged (error : JsError) (w : World) : World :=
  mkWorld (db w) (store_log w) (console w ++ [error])%list.

(** The [data] object of a request whose fields are the strings [n] and
    [e], with the hash [h]. *)
Definition user_data (n e h : string) : UserCreateInput :=
  mkInput (Some (JStr n)) (Some (JStr e)) h.

(** A computation keeps a property of the world. *)
Definition preserves {A} (P : World -> Prop) (m : Async A) : Prop :=
  forall w, P w -> P (snd (m w)).






(** The error the platform's parser raises on the request text
    [DATABASE_URL]: its message quotes the text it could not parse. *)
Definition dquote : string := String (ascii_of_nat 34) EmptyString.

Definition json_syntax_error : JsError :=
  mkError "SyntaxError"
          ("Unexpected token 'D', " ++ dquote ++ "DATABASE_URL" ++ dquote
             ++ " is not valid JSON")
          "SyntaxError".

Definition unparseable_env : Env :=
  mkEnv (Throw json_syntax_error) None [] None "N9qo8uLOickgx2ZMRZoMye" plain_text.

(** Another session registers the same address between the read and the
    insert. *)
Definition race_env : Env :=
  mkEnv (Normal sam) None [("Samuel", "sam@x.com", "$2b$10$other")] None
        "N9qo8uLOickgx2ZMRZoMye" plain_text.

(** A store that already holds Sam's Account. *)
Definition sam_row : User :=
  mkUser 1 "Sam" "sam@x.com" "$2b$10$N9qo8uLOickgx2ZMRZoMye.65432wp".

Definition sam_world : World := mkWorld [sam_row] [] [].

(** The same address with a capital letter. *)
Definition sam_capital : Json := registration_request "Sam" "Sam@x.com" "pw123456".

(** A request whose name is the same text as its password. *)
Definition careless : Json := registration_request "pw123456" "kim@x.com" "pw123456".

(** A request whose email is an object, and surroundings in which the
    client's validation text echoes it. *)
Definition object_email : Json :=
  JObj [("name", JStr "Sam");
        ("email", JObj [("DATABASE_URL", JNum 1)]);
        ("password", JStr "pw123456")].

Definition echo_text (op : StoreOp) : string :=
  "Argument `email`: Invalid value { DATABASE_URL: 1 } provided. Expected String.".

Definition echoing_env : Env :=
  mkEnv (Normal object_email) None [] None "N9qo8uLOickgx2ZMRZoMye" echo_text.

(** A request without a password and with an empty email. *)
Definition incomplete_request : Json :=
  JObj [("name", JStr "Sam"); ("email", JStr EmptyString)].

(** The client's error when the connection string is not configured. *)
Definition initialization_error : JsError :=
  mkError "PrismaClientInitializationError"
          "error: Environment variable not found: DATABASE_URL."
          "PrismaClientInitializationError".

Definition down_env : Env :=
  mkEnv (Normal sam) (Some initialization_error) [] None "N9qo8uLOickgx2ZMRZoMye"
        plain_text.

(** The parser's error on an empty request text. *)
Definition empty_body_error : JsError :=
  mkError "SyntaxError" "Unexpected end of JSON input" "SyntaxError".

Definition empty_body_env : Env :=
  mkEnv (Throw empty_body_error) None [] None "N9qo8uLOickgx2ZMRZoMye" plain_text.

(** A second request for Sam's address, under another name. *)
Definition sam_again : Json :=
  registration_request "Samantha" "sam@x.com" "correct horse".

(** A body that is an array. *)
Definition array_body : Json := JArr [JStr "Sam"; JStr "sam@x.com"; JStr "pw123456"].

(** A short history: Sam registers, loses a race, registers with a
    capital letter, and meets a store that is down. *)
Definition sam_history : list Env :=
  [quiet_env sam; race_env; quiet_env sam_capital; down_env].

(** Requests handled one after the other, each in its own
    surroundings, by the handler [handle]. *)
Fixpoint handle_all (handle : Env -> Async Response) (envs : list Env)
         (w : World) : World :=
  match envs with
  | [] => w
  | env :: rest => handle_all handle rest (snd (handle env w))
  end.

(** The store operations one invocation may add to the log: nothing, a
    lookup, or a lookup followed by the insert of the same address. *)
Definition one_invocation (ops : list StoreOp) : Prop :=
  ops = []
  \/ (exists em, ops = [OpFindUnique em])
  \/ (exists em d, data_email d = em /\ ops = [OpFindUnique em; OpCreate d]).

(** ** Runs *)

Example sam_first : 
  fst (POST demo_kdf (quiet_env sam) empty_world) = Normal registered_201.
Proof. reflexivity. Qed.

Example sam_twice :
  fst (POST demo_kdf (quiet_env sam) (snd (POST demo_kdf (quiet_env sam) empty_world)))
  = Normal conflict_409.
Proof. reflexivity. Qed.

Example null_body :
  fst (POST demo_kdf (quiet_env JNull) empty_world) = Normal unexpected_500.
Proof. reflexivity. Qed.

Example race_run :
  fst (POST demo_kdf race_env empty_world) = Normal database_500.
Proof. reflexivity. Qed.

Example object_email_run :
  fst (POST demo_kdf echoing_env empty_world) = Normal configuration_500.
Proof. reflexivity. Qed.

Example unparseable_run :
  fst (POST demo_kdf unparseable_env empty_world) = Normal configuration_500.
Proof. reflexivity. Qed.

(** ** Facts about values *)

Lemma truthy_string (s : string) :
  s <> EmptyString -> truthy (Some (JStr s)) = true.
Proof.
  intros Hs. simpl. destruct (String.eqb_spec s EmptyString); [contradiction | reflexivity].
Qed.

Lemma missing_or_empty_falsy (v : JsValue) :
  missing_or_empty v -> js_not v = true.
Proof. intros [-> | ->]; reflexivity. Qed.

Lemma get_prop_some_not_null (v : Json) (k : string) (x : Json) :
  get_prop v k = Some x -> v <> JNull.
Proof. destruct v; simpl; congruence. Qed.

(** ** Facts about the store *)

Lemma count_email_app (e : string) (rows rows' : list User) :
  count_email e (rows ++ rows') = count_email e rows + count_email e rows'.
Proof. unfold count_email. now rewrite filter_app, length_app. Qed.

Lemma find_by_email_none (e : string) (rows : list User) :
  find_by_email e rows = None <-> count_email e rows = 0.
Proof.
  unfold find_by_email, count_email.
  induction rows as [| u rows IH]; simpl; [tauto |].
  destruct (String.eqb (user_email u) e); simpl; [split; discriminate | exact IH].
Qed.

Lemma find_by_email_some (e : string) (rows : list User) (u : User) :
  find_by_email e rows = Some u -> In u rows /\ user_email u = e.
Proof.
  unfold find_by_email. intros H. apply find_some in H as [Hin Heq].
  split; [exact Hin | now apply String.eqb_eq].
Qed.

Lemma count_email_in (e : string) (rows : list User) :
  count_email e rows = 0 <-> ~ In e (map user_email rows).
Proof.
  unfold count_email.
  induction rows as [| u rows IH]; simpl; [tauto |].
  destruct (String.eqb_spec (user_email u) e) as [Heq | Hne]; simpl.
  - split; [discriminate | intros H; exfalso; apply H; now left].
  - rewrite IH. tauto.
Qed.

Lemma unique_emails_count (rows : list User) (u : User) :
  unique_emails rows -> In u rows -> count_email (user_email u) rows = 1.
Proof.
  unfold unique_emails.
  induction rows as [| x rows IH]; simpl; intros Hnd Hin; [contradiction |].
  inversion Hnd as [| ? ? Hnotin Hnd']; subst.
  unfold count_email in *. simpl.
  destruct Hin as [-> | Hin].
  - rewrite String.eqb_refl. simpl. f_equal.
    now apply count_email_in.
  - destruct (String.eqb_spec (user_email x) (user_email u)) as [Heq | Hne].
    + exfalso. apply Hnotin. rewrite Heq. now apply in_map.
    + now apply IH.
Qed.

Lemma count_email_single (e0 : string) (u : User) :
  count_email e0 [u] = if String.eqb (user_email u) e0 then 1 else 0.
Proof. unfold count_email. simpl. now destruct (String.eqb (user_email u) e0). Qed.

Lemma insert_row_count (n e h : string) (rows rows' : list User) (e0 : string) :
  insert_row n e h rows = Some rows' ->
  count_email e0 rows' = count_email e0 rows + (if String.eqb e e0 then 1 else 0).
Proof.
  unfold insert_row. destruct (find_by_email e rows); [discriminate |].
  intros [= <-]. now rewrite count_email_app, count_email_single.
Qed.

Lemma insert_row_unique (n e h : string) (rows rows' : list User) :
  insert_row n e h rows = Some rows' -> unique_emails rows -> unique_emails rows'.
Proof.
  unfold insert_row. destruct (find_by_email e rows) eqn:Hfind; [discriminate |].
  intros [= <-] Hu. unfold unique_emails in *.
  rewrite map_app. simpl.
  apply NoDup_app; [exact Hu | repeat constructor; simpl; tauto |].
  intros a Hin [<- | []].
  apply find_by_email_none in Hfind. now apply count_email_in in Hfind.
Qed.

Lemma commit_concurrent_unique (cs : list (string * string * string)) :
  forall rows, unique_emails rows -> unique_emails (commit_concurrent cs rows).
Proof.
  induction cs as [| [[n e] h] cs IH]; simpl; intros rows Hu; [exact Hu |].
  destruct (insert_row n e h rows) eqn:Hins; apply IH; [| exact Hu].
  eapply insert_row_unique; eauto.
Qed.

Lemma commit_concurrent_count (e0 : string) (cs : list (string * string * string)) :
  Forall (fun c => snd (fst c) <> e0) cs ->
  forall rows, count_email e0 (commit_concurrent cs rows) = count_email e0 rows.
Proof.
  induction 1 as [| [[n e] h] cs Hne _ IH]; simpl; intros rows; [reflexivity |].
  simpl in Hne.
  destruct (insert_row n e h rows) eqn:Hins; rewrite IH; [| reflexivity].
  rewrite (insert_row_count _ _ _ _ _ e0 Hins).
  destruct (String.eqb_spec e e0); [contradiction | lia].
Qed.

Lemma insert_row_fresh (n e h : string) (rows : list User) :
  count_email e rows = 0 ->
  insert_row n e h rows = Some (rows ++ [mkUser (fresh_id rows) n e h])%list.
Proof.
  intros H. apply find_by_email_none in H. unfold insert_row. now rewrite H.
Qed.

Lemma insert_row_taken (n e h : string) (rows : list User) :
  count_email e rows <> 0 -> insert_row n e h rows = None.
Proof.
  intros H. unfold insert_row.
  destruct (find_by_email e rows) eqn:Hf; [reflexivity |].
  now apply find_by_email_none in Hf.
Qed.

(** ** Running the handler *)

Section Runs.

Variable bcrypt_kdf : string -> nat -> string -> string.

Lemma catch_block_run (error : JsError) (w : World) :
  catch_block error w = (Normal (error_response error), logged error w).
Proof.
  unfold catch_block, error_response, bind, console_error, ret, logged.
  simpl.
  destruct (String.eqb (err_name error) "PrismaClientInitializationError"
            || string_truthy (err_message error)
               && includes (err_message error) "DATABASE_URL");
    [reflexivity |].
  destruct (startsWith (err_constructor_name error) "PrismaClient"); reflexivity.
Qed.

Lemma POST_throw (env : Env) (w w1 : World) (error : JsError) :
  try_block bcrypt_kdf env w = (Throw error, w1) ->
  POST bcrypt_kdf env w = (Normal (error_response error), logged error w1).
Proof.
  intros H. unfold POST, try_catch. rewrite H. apply catch_block_run.
Qed.

Lemma POST_normal (env : Env) (w w1 : World) (r : Response) :
  try_block bcrypt_kdf env w = (Normal r, w1) -> POST bcrypt_kdf env w = (Normal r, w1).
Proof. intros H. unfold POST, try_catch. now rewrite H. Qed.

Lemma destructure_not_null (v : Json) (w : World) :
  v <> JNull ->
  destructure v w
  = (Normal (get_prop v "name", get_prop v "email", get_prop v "password"), w).
Proof. destruct v; intros H; try reflexivity. contradiction. Qed.

(** The [try] block once the body has parsed to a value that can be
    destructured. *)
Lemma try_block_parsed (env : Env) (w : World) (v : Json) :
  request_body env = Normal v -> v <> JNull ->
  try_block bcrypt_kdf env w =
  let name := get_prop v "name" in
  let email := get_prop v "email" in
  let password := get_prop v "password" in
  if js_not name || js_not email || js_not password
  then (Normal validation_400, w)
  else
    match prisma_user_findUnique env email w with
    | (Normal (Some _), w1) => (Normal conflict_409, w1)
    | (Normal None, w1) =>
        match bcrypt_hash bcrypt_kdf env password 10 w1 with
        | (Normal h, w2) =>
            match prisma_user_create env (mkInput name email h) w2 with
            | (Normal _, w3) => (Normal registered_201, w3)
            | (Throw e, w3) => (Throw e, w3)
            end
        | (Throw e, w2) => (Throw e, w2)
        end
    | (Throw e, w1) => (Throw e, w1)
    end.
Proof.
  intros Hbody Hv. unfold try_block, bind at 1, req_json.
  rewrite Hbody. unfold bind at 1. rewrite (destructure_not_null _ _ Hv).
  cbv zeta.
  destruct (js_not (get_prop v "name") || js_not (get_prop v "email")
            || js_not (get_prop v "password")); [reflexivity |].
  unfold bind at 1.
  destruct (prisma_user_findUnique env (get_prop v "email") w) as [[[u |] | e] w1];
    reflexivity.
Qed.

(** *** Preservation through the monad *)

Lemma preserves_ret {A} (P : World -> Prop) (a : A) : preserves P (ret a).
Proof. intros w H. exact H. Qed.

Lemma preserves_throw {A} (P : World -> Prop) (e : JsError) :
  preserves P (@throw A e).
Proof. intros w H. exact H. Qed.

Lemma preserves_bind {A B} (P : World -> Prop) (m : Async A) (k : A -> Async B) :
  preserves P m -> (forall a, preserves P (k a)) -> preserves P (bind m k).
Proof.
  intros Hm Hk w Hw. unfold bind. specialize (Hm w Hw).
  destruct (m w) as [[a | e] w1]; simpl in *; [now apply Hk | exact Hm].
Qed.

Lemma preserves_try_catch {A} (P : World -> Prop) (m : Async A)
      (h : JsError -> Async A) :
  preserves P m -> (forall e, preserves P (h e)) -> preserves P (try_catch m h).
Proof.
  intros Hm Hh w Hw. unfold try_catch. specialize (Hm w Hw).
  destruct (m w) as [[a | e] w1]; simpl in *; [exact Hm | now apply Hh].
Qed.

Lemma preserves_findUnique (P : list User -> Prop) (env : Env) (email : JsValue) :
  preserves (fun w => P (db w)) (prisma_user_findUnique env email).
Proof.
  intros w H. unfold prisma_user_findUnique.
  destruct (find_fault env); [exact H |].
  destruct email as [[] |]; exact H.
Qed.

Lemma preserves_bcrypt_hash (P : World -> Prop) (env : Env) (data : JsValue)
      (rounds : nat) :
  preserves P (bcrypt_hash bcrypt_kdf env data rounds).
Proof. intros w H. destruct data as [[] |]; exact H. Qed.

Lemma preserves_create_unique (env : Env) (data : UserCreateInput) :
  preserves (fun w => unique_emails (db w)) (prisma_user_create env data).
Proof.
  intros w H. unfold prisma_user_create.
  destruct (create_fault env); [exact H |].
  destruct (data_name data) as [[] |]; try exact H.
  destruct (data_email data) as [[] |]; try exact H.
  simpl db.
  pose proof (commit_concurrent_unique (concurrent env) _ H) as Hc.
  destruct (insert_row _ _ _ _) eqn:Hins; simpl; [| exact Hc].
  eapply insert_row_unique; eauto.
Qed.

Lemma preserves_catch_block (P : list User -> Prop) (error : JsError) :
  preserves (fun w => P (db w)) (catch_block error).
Proof. intros w H. rewrite catch_block_run. exact H. Qed.

(** The invariant of the data model: every run of the handler keeps at
    most one Account per email address. *)
Lemma POST_unique_emails (env : Env) :
  preserves (fun w => unique_emails (db w)) (POST bcrypt_kdf env).
Proof.
  unfold POST. apply preserves_try_catch; [| intros e; apply preserves_catch_block].
  unfold try_block.
  apply preserves_bind; [intros w H; exact H | intros v].
  apply preserves_bind; [destruct v; intros w H; exact H | intros [[name email] password]].
  destruct (js_not name || js_not email || js_not password);
    [apply preserves_ret |].
  apply preserves_bind; [apply (preserves_findUnique unique_emails) | intros [u |]];
    [apply preserves_ret |].
  apply preserves_bind; [apply preserves_bcrypt_hash | intros h].
  apply preserves_bind; [apply preserves_create_unique | intros u; apply preserves_ret].
Qed.

(** *** The paths of the [try] block *)

Lemma valid_fields_pass (n e p : string) :
  n <> EmptyString -> e <> EmptyString -> p <> EmptyString ->
  js_not (Some (JStr n)) || js_not (Some (JStr e)) || js_not (Some (JStr p)) = false.
Proof.
  intros Hn He Hp. unfold js_not.
  now rewrite !truthy_string by assumption.
Qed.

Lemma truthy_fields_pass (a b c : JsValue) :
  truthy a = true -> truthy b = true -> truthy c = true ->
  js_not a || js_not b || js_not c = false.
Proof. unfold js_not. now intros -> -> ->. Qed.

Lemma missing_field_rejected (a b c : JsValue) :
  missing_or_empty a \/ missing_or_empty b \/ missing_or_empty c ->
  js_not a || js_not b || js_not c = true.
Proof.
  intros [H | [H | H]]; apply missing_or_empty_falsy in H; rewrite H;
    now rewrite ?orb_true_r.
Qed.

Lemma truthy_not_null (v : Json) (k : string) :
  truthy (get_prop v k) = true -> v <> JNull.
Proof. destruct v; simpl; congruence. Qed.

(** The run that reaches the insert and is accepted by the store. *)
Lemma POST_accepted (env : Env) (w : World) (v : Json) (n e p : string) :
  request_body env = Normal v ->
  get_prop v "name" = Some (JStr n) -> n <> EmptyString ->
  get_prop v "email" = Some (JStr e) -> e <> EmptyString ->
  get_prop v "password" = Some (JStr p) -> p <> EmptyString ->
  find_fault env = None -> create_fault env = None ->
  count_email e (db w) = 0 ->
  count_email e (commit_concurrent (concurrent env) (db w)) = 0 ->
  let rows := commit_concurrent (concurrent env) (db w) in
  let h := bcrypt_kdf p 10 (bcrypt_salt env) in
  POST bcrypt_kdf env w
  = (Normal registered_201,
     mkWorld (rows ++ [mkUser (fresh_id rows) n e h])%list
             (store_log w ++ [OpFindUnique (Some (JStr e))]
                ++ [OpCreate (user_data n e h)])%list
             (console w)).
Proof.
  intros Hbody Hn Hn0 He He0 Hp Hp0 Hff Hcf Hcount Hrows rows h.
  apply POST_normal.
  rewrite (try_block_parsed env w v Hbody (get_prop_some_not_null _ _ _ Hn)).
  rewrite Hn, He, Hp. cbv zeta.
  rewrite valid_fields_pass by assumption.
  unfold prisma_user_findUnique. rewrite Hff. simpl db.
  apply find_by_email_none in Hcount. rewrite Hcount.
  unfold bcrypt_hash, ret, prisma_user_create. rewrite Hcf. simpl.
  rewrite (insert_row_fresh n e _ _ Hrows).
  unfold set_db, log_op, user_data. simpl. now rewrite <- app_assoc.
Qed.

(** ** Registration *)

(** C1. A request whose name, email and password are non-empty strings
    and whose email belongs to no Account is answered with 201 and
    "User registered successfully"; afterwards exactly one Account has
    that email, and the handler has issued exactly one store read (the
    lookup) followed by exactly one store write (the insert), nothing
    more. *)
Theorem POST_registers_once (env : Env) (w : World) (v : Json) (n e p : string) :
  request_body env = Normal v ->
  get_prop v "name" = Some (JStr n) -> n <> EmptyString ->
  get_prop v "email" = Some (JStr e) -> e <> EmptyString ->
  get_prop v "password" = Some (JStr p) -> p <> EmptyString ->
  find_fault env = None -> create_fault env = None ->
  count_email e (db w) = 0 ->
  Forall (fun c => snd (fst c) <> e) (concurrent env) ->
  fst (POST bcrypt_kdf env w) = Normal registered_201
  /\ count_email e (db (snd (POST bcrypt_kdf env w))) = 1
  /\ store_log (snd (POST bcrypt_kdf env w))
     = (store_log w
          ++ [OpFindUnique (Some (JStr e));
              OpCreate (user_data n e (bcrypt_kdf p 10 (bcrypt_salt env)))])%list.
Proof.
  intros Hbody Hn Hn0 He He0 Hp Hp0 Hff Hcf Hcount Hconc.
  assert (Hrows : count_email e (commit_concurrent (concurrent env) (db w)) = 0)
    by now rewrite commit_concurrent_count.
  rewrite (POST_accepted env w v n e p) by assumption.
  simpl. repeat split.
  rewrite count_email_app, Hrows, count_email_single. simpl.
  now rewrite String.eqb_refl.
Qed.

(** C2. In a state with at most one Account per email in which an
    Account with email [e] exists, a registration request with email [e]
    is answered with 409 and "User with this email already exists"; the
    store rows are unchanged, no insert is issued, the number of Accounts
    with email [e] is still 1, and whatever request is handled in that
    state, at most one Account per email exists afterwards. *)
Theorem POST_duplicate_email_conflict (env : Env) (w : World) (v : Json)
        (e : string) (u : User) :
  unique_emails (db w) -> In u (db w) -> user_email u = e ->
  request_body env = Normal v ->
  truthy (get_prop v "name") = true ->
  get_prop v "email" = Some (JStr e) -> e <> EmptyString ->
  truthy (get_prop v "password") = true ->
  find_fault env = None ->
  fst (POST bcrypt_kdf env w) = Normal conflict_409
  /\ db (snd (POST bcrypt_kdf env w)) = db w
  /\ store_log (snd (POST bcrypt_kdf env w))
     = (store_log w ++ [OpFindUnique (Some (JStr e))])%list
  /\ count_email e (db (snd (POST bcrypt_kdf env w))) = 1
  /\ (forall env', unique_emails (db (snd (POST bcrypt_kdf env' w)))).
Proof.
  intros Huniq Hin Hu Hbody Hn He He0 Hp Hff.
  assert (Hone : count_email e (db w) = 1)
    by (subst e; now apply unique_emails_count).
  assert (Hrun : POST bcrypt_kdf env w
                 = (Normal conflict_409, log_op (OpFindUnique (Some (JStr e))) w)).
  { apply POST_normal.
    rewrite (try_block_parsed env w v Hbody (truthy_not_null _ _ Hn)).
    cbv zeta. rewrite truthy_fields_pass;
      [| assumption | rewrite He; now apply truthy_string | assumption].
    rewrite He. unfold prisma_user_findUnique. rewrite Hff. simpl db.
    destruct (find_by_email e (db w)) eqn:Hfind; [reflexivity |].
    apply find_by_email_none in Hfind. congruence. }
  rewrite Hrun. simpl. repeat split; try assumption.
  intros env'. now apply (POST_unique_emails env').
Qed.

(** C3. When the body parses to a value that can be destructured and
    any of name, email, password is missing or the empty string, the
    handler answers 400 with "All fields are required" and leaves the
    world as it was: no store read, no store write, no Account. *)
Theorem POST_missing_field (env : Env) (w : World) (v : Json) :
  request_body env = Normal v -> v <> JNull ->
  missing_or_empty (get_prop v "name")
  \/ missing_or_empty (get_prop v "email")
  \/ missing_or_empty (get_prop v "password") ->
  POST bcrypt_kdf env w = (Normal validation_400, w).
Proof.
  intros Hbody Hv Hmiss. apply POST_normal.
  rewrite (try_block_parsed env w v Hbody Hv). cbv zeta.
  now rewrite missing_field_rejected.
Qed.

(** ** The stored record *)

Lemma error_response_status (error : JsError) :
  status (error_response error) = 500.
Proof.
  unfold error_response.
  destruct (_ || _); [reflexivity |].
  destruct (startsWith _ _); reflexivity.
Qed.

Lemma truthy_string_inv (s : string) :
  truthy (Some (JStr s)) = true -> s <> EmptyString.
Proof. simpl. intros H ->. discriminate. Qed.

Lemma fields_pass_inv (a b c : JsValue) :
  js_not a || js_not b || js_not c = false ->
  truthy a = true /\ truthy b = true /\ truthy c = true.
Proof.
  unfold js_not.
  destruct (truthy a), (truthy b), (truthy c); simpl; intros H;
    try discriminate; auto.
Qed.

(** A 201 answer is only given on the path that parsed three non-empty
    strings, found no Account with the email, and had its insert
    accepted. *)
Lemma POST_201_inv (env : Env) (w : World) (r : Response) :
  fst (POST bcrypt_kdf env w) = Normal r -> status r = 201 ->
  exists v n e p,
    request_body env = Normal v
    /\ (get_prop v "name" = Some (JStr n) /\ n <> EmptyString)
    /\ (get_prop v "email" = Some (JStr e) /\ e <> EmptyString)
    /\ (get_prop v "password" = Some (JStr p) /\ p <> EmptyString)
    /\ find_fault env = None /\ create_fault env = None
    /\ count_email e (db w) = 0
    /\ count_email e (commit_concurrent (concurrent env) (db w)) = 0.
Proof.
  intros Hrun Hst.
  destruct (try_block bcrypt_kdf env w) as [[r' | err] w1] eqn:Htb.
  2:{ rewrite (POST_throw env w w1 err Htb) in Hrun. simpl in Hrun.
      injection Hrun as <-. rewrite error_response_status in Hst. discriminate. }
  rewrite (POST_normal env w w1 r' Htb) in Hrun. simpl in Hrun.
  injection Hrun as ->.
  destruct (request_body env) as [v | err] eqn:Hbody.
  2:{ unfold try_block, bind, req_json in Htb. rewrite Hbody in Htb. discriminate. }
  assert (Hv : v <> JNull).
  { intros ->. unfold try_block, bind, req_json in Htb. rewrite Hbody in Htb.
    discriminate. }
  rewrite (try_block_parsed env w v Hbody Hv) in Htb. cbv zeta in Htb.
  destruct (js_not (get_prop v "name") || js_not (get_prop v "email")
            || js_not (get_prop v "password")) eqn:Hval.
  { injection Htb as <- _. discriminate. }
  apply fields_pass_inv in Hval as (Hn & He & Hp).
  unfold prisma_user_findUnique in Htb.
  destruct (find_fault env) eqn:Hff; [discriminate |].
  destruct (get_prop v "email") as [[| | | e | |] |] eqn:Hemail; try discriminate.
  simpl db in Htb.
  destruct (find_by_email e (db w)) eqn:Hfind.
  { injection Htb as <- _. discriminate. }
  unfold bcrypt_hash in Htb.
  destruct (get_prop v "password") as [[| | | p | |] |] eqn:Hpw; try discriminate.
  unfold ret, prisma_user_create in Htb.
  destruct (create_fault env) eqn:Hcf; [discriminate |].
  simpl in Htb.
  destruct (get_prop v "name") as [[| | | n | |] |] eqn:Hname; try discriminate.
  destruct (insert_row n e _ _) eqn:Hins; [| discriminate].
  exists v, n, e, p.
  repeat split; auto using truthy_string_inv.
  - now apply find_by_email_none.
  - unfold insert_row in Hins.
    destruct (find_by_email e (commit_concurrent _ _)) eqn:Hf; [discriminate |].
    now apply find_by_email_none.
Qed.

(** C5 (as the code has it). After every successful registration (a
    201 answer) the request carried three strings and the row added to
    the store has the request's name, the request's email and, as its
    password hash, the bcrypt derivation of the plaintext at work factor
    10 with the drawn salt.  The plaintext is given to bcrypt and to
    nothing else: a field of the row is the plaintext only if the caller
    sent that very text as name or email or bcrypt returned its input,
    and a request that differs in the password alone, with the same
    hash, leaves the same answer and the same world. *)
Theorem stored_record_fields (env : Env) (w : World) (r : Response) :
  fst (POST bcrypt_kdf env w) = Normal r -> status r = 201 ->
  exists v n e p u,
    request_body env = Normal v
    /\ get_prop v "name" = Some (JStr n)
    /\ get_prop v "email" = Some (JStr e)
    /\ get_prop v "password" = Some (JStr p)
    /\ db (snd (POST bcrypt_kdf env w))
       = (commit_concurrent (concurrent env) (db w) ++ [u])%list
    /\ user_name u = n
    /\ user_email u = e
    /\ user_hashedPassword u = bcrypt_kdf p 10 (bcrypt_salt env)
    /\ (In p [user_name u; user_email u; user_hashedPassword u] ->
        n = p \/ e = p \/ bcrypt_kdf p 10 (bcrypt_salt env) = p)
    /\ (forall env' v' p',
           request_body env' = Normal v' ->
           get_prop v' "name" = Some (JStr n) ->
           get_prop v' "email" = Some (JStr e) ->
           get_prop v' "password" = Some (JStr p') -> p' <> EmptyString ->
           find_fault env' = find_fault env ->
           create_fault env' = create_fault env ->
           concurrent env' = concurrent env ->
           bcrypt_salt env' = bcrypt_salt env ->
           bcrypt_kdf p' 10 (bcrypt_salt env) = bcrypt_kdf p 10 (bcrypt_salt env) ->
           POST bcrypt_kdf env' w = POST bcrypt_kdf env w).
Proof.
  intros Hrun Hst.
  destruct (POST_201_inv env w r Hrun Hst)
    as (v & n & e & p & Hbody & [Hn Hn0] & [He He0] & [Hp Hp0] & Hff & Hcf & Hc & Hrows).
  pose proof (POST_accepted env w v n e p Hbody Hn Hn0 He He0 Hp Hp0 Hff Hcf Hc Hrows)
    as Hacc.
  cbv zeta in Hacc.
  exists v, n, e, p.
  eexists (mkUser _ n e (bcrypt_kdf p 10 (bcrypt_salt env))).
  repeat split; try assumption.
  - now rewrite Hacc.
  - simpl. intros [H | [H | [H | []]]]; auto.
  - intros env' v' p' Hbody' Hn' He' Hp' Hp0' Hff' Hcf' Hconc' Hsalt' Hhash.
    assert (Hrows' : count_email e (commit_concurrent (concurrent env') (db w)) = 0)
      by now rewrite Hconc'.
    assert (Hff'' : find_fault env' = None) by congruence.
    assert (Hcf'' : create_fault env' = None) by congruence.
    pose proof (POST_accepted env' w v' n e p' Hbody' Hn' Hn0 He' He0 Hp' Hp0'
                  Hff'' Hcf'' Hc Hrows') as Hacc'.
    cbv zeta in Hacc'.
    rewrite Hacc', Hacc, Hconc', Hsalt', Hhash. reflexivity.
Qed.

(** ** The [catch] block *)

Lemma includes_nonempty (msg : string) :
  includes msg "DATABASE_URL" = true -> string_truthy msg = true.
Proof. destruct msg; [discriminate | reflexivity]. Qed.

(** The guard of the first branch, without the redundant truthiness
    test of the message. *)
Lemma error_response_tests (error : JsError) :
  error_response error
  = if names_initialization error || mentions_DATABASE_URL error
    then configuration_500
    else if constructed_by_PrismaClient error then database_500
         else unexpected_500.
Proof.
  unfold error_response, names_initialization, mentions_DATABASE_URL,
    constructed_by_PrismaClient.
  destruct (includes (err_message error) "DATABASE_URL") eqn:Hinc.
  - now rewrite (includes_nonempty _ Hinc).
  - now rewrite andb_false_r.
Qed.

Lemma error_response_unavailable (error : JsError) :
  store_unavailable error -> error_response error = configuration_500.
Proof.
  intros [Hname | Hmsg]; rewrite error_response_tests.
  - unfold names_initialization. rewrite Hname. reflexivity.
  - rewrite Hmsg. now rewrite orb_true_r.
Qed.

Lemma error_response_enumerated (error : JsError) :
  In (error_response error) [configuration_500; database_500; unexpected_500].
Proof.
  rewrite error_response_tests.
  destruct (_ || _); [simpl; tauto |].
  destruct (constructed_by_PrismaClient error); simpl; tauto.
Qed.

Lemma try_block_normal (env : Env) (w w1 : World) (r : Response) :
  try_block bcrypt_kdf env w = (Normal r, w1) ->
  In r [registered_201; validation_400; conflict_409].
Proof.
  intros Htb.
  destruct (request_body env) as [v | err] eqn:Hbody.
  2:{ unfold try_block, bind, req_json in Htb. rewrite Hbody in Htb. discriminate. }
  assert (Hv : v <> JNull).
  { intros ->. unfold try_block, bind, req_json in Htb. rewrite Hbody in Htb.
    discriminate. }
  rewrite (try_block_parsed env w v Hbody Hv) in Htb. cbv zeta in Htb.
  destruct (js_not _ || js_not _ || js_not _).
  { injection Htb as <- _. simpl; tauto. }
  destruct (prisma_user_findUnique env _ w) as [[[u |] | err] w2];
    [injection Htb as <- _; simpl; tauto | | discriminate].
  destruct (bcrypt_hash bcrypt_kdf env _ 10 w2) as [[h | err] w3]; [| discriminate].
  destruct (prisma_user_create env _ w3) as [[u | err] w4]; [| discriminate].
  injection Htb as <- _. simpl; tauto.
Qed.

(** C4 (as the code has it). When the request passes the existence
    check and another session has committed an Account with the same
    email before the insert arrives, the store rejects the insert with
    its uniqueness error and the handler answers through the general
    Prisma branch: 500 with "A database error occurred during
    registration."; the request adds no row. *)
Theorem store_conflict_is_database_error (env : Env) (w : World) (v : Json)
        (n e p : string) :
  request_body env = Normal v ->
  get_prop v "name" = Some (JStr n) -> n <> EmptyString ->
  get_prop v "email" = Some (JStr e) -> e <> EmptyString ->
  get_prop v "password" = Some (JStr p) -> p <> EmptyString ->
  find_fault env = None -> create_fault env = None ->
  count_email e (db w) = 0 ->
  count_email e (commit_concurrent (concurrent env) (db w)) <> 0 ->
  fst (try_block bcrypt_kdf env w) = Throw unique_constraint_error
  /\ fst (POST bcrypt_kdf env w) = Normal database_500
  /\ db (snd (POST bcrypt_kdf env w)) = commit_concurrent (concurrent env) (db w).
Proof.
  intros Hbody Hn Hn0 He He0 Hp Hp0 Hff Hcf Hcount Hrows.
  assert (Htb : try_block bcrypt_kdf env w
                = (Throw unique_constraint_error,
                   set_db (commit_concurrent (concurrent env) (db w))
                     (log_op (OpCreate (user_data n e (bcrypt_kdf p 10 (bcrypt_salt env))))
                        (log_op (OpFindUnique (Some (JStr e))) w)))).
  { rewrite (try_block_parsed env w v Hbody (get_prop_some_not_null _ _ _ Hn)).
    rewrite Hn, He, Hp. cbv zeta.
    rewrite valid_fields_pass by assumption.
    unfold prisma_user_findUnique. rewrite Hff. simpl db.
    apply find_by_email_none in Hcount. rewrite Hcount.
    unfold bcrypt_hash, ret, prisma_user_create. rewrite Hcf. simpl.
    now rewrite (insert_row_taken n e _ _ Hrows). }
  rewrite (POST_throw env w _ _ Htb), Htb. repeat split.
Qed.

(** C6. When the request passes validation and the store is unreachable
    or misconfigured (its client raises an initialization error, or an
    error naming the missing [DATABASE_URL]), the handler answers 500
    with "Server configuration error: Database connection failed. Please
    contact support."; the store rows are as before and no insert is
    issued. *)
Theorem store_unavailable_configuration_error (env : Env) (w : World) (v : Json)
        (error : JsError) :
  request_body env = Normal v ->
  truthy (get_prop v "name") = true ->
  truthy (get_prop v "email") = true ->
  truthy (get_prop v "password") = true ->
  find_fault env = Some error -> store_unavailable error ->
  fst (POST bcrypt_kdf env w) = Normal configuration_500
  /\ db (snd (POST bcrypt_kdf env w)) = db w
  /\ store_log (snd (POST bcrypt_kdf env w))
     = (store_log w ++ [OpFindUnique (get_prop v "email")])%list.
Proof.
  intros Hbody Hn He Hp Hff Hdown.
  assert (Htb : try_block bcrypt_kdf env w
                = (Throw error, log_op (OpFindUnique (get_prop v "email")) w)).
  { rewrite (try_block_parsed env w v Hbody (truthy_not_null _ _ Hn)).
    cbv zeta. rewrite truthy_fields_pass by assumption.
    unfold prisma_user_findUnique. now rewrite Hff. }
  rewrite (POST_throw env w _ _ Htb), (error_response_unavailable _ Hdown).
  repeat split.
Qed.

(** C7. Whatever the request and whatever is thrown inside the [try]
    block, the handler completes normally with one of the six enumerated
    responses; when something was thrown, the error goes to the server
    console and the answer is one of the three fixed 500 bodies, chosen
    by [error_response]. *)
Theorem POST_never_throws (env : Env) (w : World) :
  (exists r, fst (POST bcrypt_kdf env w) = Normal r /\ In r enumerated_responses)
  /\ (forall error w1,
        try_block bcrypt_kdf env w = (Throw error, w1) ->
        console (snd (POST bcrypt_kdf env w)) = (console w1 ++ [error])%list
        /\ In (fst (POST bcrypt_kdf env w))
              [Normal configuration_500; Normal database_500; Normal unexpected_500]).
Proof.
  split.
  - destruct (try_block bcrypt_kdf env w) as [[r | err] w1] eqn:Htb.
    + exists r. rewrite (POST_normal env w w1 r Htb). split; [reflexivity |].
      apply try_block_normal in Htb. unfold enumerated_responses.
      simpl in *. tauto.
    + exists (error_response err). rewrite (POST_throw env w w1 err Htb).
      split; [reflexivity |].
      pose proof (error_response_enumerated err) as H.
      unfold enumerated_responses. simpl in *. tauto.
  - intros error w1 Htb. rewrite (POST_throw env w w1 error Htb). simpl.
    split; [reflexivity |].
    pose proof (error_response_enumerated error) as H. simpl in H.
    destruct H as [<- | [<- | [<- | []]]]; tauto.
Qed.

(** C8 (as the code has it). When [req.json()] rejects with a
    [SyntaxError] whose message does not contain [DATABASE_URL], the
    handler answers 500 with "An unexpected error occurred. Please try
    again later." and only the console changes: no store operation, no
    Account. *)
Theorem unparseable_body_unexpected_error (env : Env) (w : World) (error : JsError) :
  request_body env = Throw error ->
  err_name error = "SyntaxError" ->
  err_constructor_name error = "SyntaxError" ->
  mentions_DATABASE_URL error = false ->
  POST bcrypt_kdf env w = (Normal unexpected_500, logged error w).
Proof.
  intros Hbody Hname Hctor Hmsg.
  assert (Htb : try_block bcrypt_kdf env w = (Throw error, w)).
  { unfold try_block, bind, req_json. now rewrite Hbody. }
  rewrite (POST_throw env w w error Htb), error_response_tests.
  unfold names_initialization, constructed_by_PrismaClient.
  now rewrite Hname, Hctor, Hmsg.
Qed.

(** C10. Whatever the [try] block throws, and wherever it came from, the
    answer is chosen by the error's name, message and constructor name:
    name [PrismaClientInitializationError] or a message containing
    [DATABASE_URL] gives the configuration error; otherwise a constructor
    name starting with [PrismaClient] gives the database error; every
    other error gives the generic fallback. *)
Theorem catch_classifies_by_name_and_text (env : Env) (w w1 : World)
        (error : JsError) :
  try_block bcrypt_kdf env w = (Throw error, w1) ->
  (err_name error = "PrismaClientInitializationError"
   \/ includes (err_message error) "DATABASE_URL" = true ->
   fst (POST bcrypt_kdf env w) = Normal configuration_500)
  /\ (err_name error <> "PrismaClientInitializationError" ->
      includes (err_message error) "DATABASE_URL" = false ->
      (startsWith (err_constructor_name error) "PrismaClient" = true ->
       fst (POST bcrypt_kdf env w) = Normal database_500)
      /\ (startsWith (err_constructor_name error) "PrismaClient" = false ->
          fst (POST bcrypt_kdf env w) = Normal unexpected_500)).
Proof.
  intros Htb. rewrite (POST_throw env w w1 error Htb). simpl.
  split.
  - intros H. now rewrite (error_response_unavailable error H).
  - intros Hname Hmsg. rewrite error_response_tests.
    unfold names_initialization, mentions_DATABASE_URL, constructed_by_PrismaClient.
    apply String.eqb_neq in Hname. rewrite Hname, Hmsg. simpl.
    split; intros ->; reflexivity.
Qed.

(** ** Letter case *)





Lemma insert_row_in (n e h : string) (rows rows' : list User) (u : User) :
  insert_row n e h rows = Some rows' -> In u rows -> In u rows'.
Proof.
  unfold insert_row. destruct (find_by_email e rows); [discriminate |].
  intros [= <-] Hin. apply in_or_app. now left.
Qed.

Lemma commit_concurrent_in (cs : list (string * string * string)) (u : User) :
  forall rows, In u rows -> In u (commit_concurrent cs rows).
Proof.
  induction cs as [| [[n e] h] cs IH]; simpl; intros rows Hin; [exact Hin |].
  destruct (insert_row n e h rows) eqn:Hins; apply IH; [| exact Hin].
  eapply insert_row_in; eauto.
Qed.


(** [POST] is the handler over the store that compares exactly. *)
Lemma POST_under_exact (env : Env) (w : World) :
  POST_under bcrypt_kdf String.eqb env w = POST bcrypt_kdf env w.
Proof. reflexivity. Qed.


End Runs.

(** ** The theorems at concrete requests *)

Lemma POST_registers_once_witness :
  fst (POST demo_kdf (quiet_env sam) empty_world) = Normal registered_201
  /\ count_email "sam@x.com" (db (snd (POST demo_kdf (quiet_env sam) empty_world))) = 1
  /\ store_log (snd (POST demo_kdf (quiet_env sam) empty_world))
     = [OpFindUnique (Some (JStr "sam@x.com"));
        OpCreate (user_data "Sam" "sam@x.com"
                    (demo_kdf "pw123456" 10 "N9qo8uLOickgx2ZMRZoMye"))].
Proof.
  apply (POST_registers_once demo_kdf (quiet_env sam) empty_world sam
           "Sam" "sam@x.com" "pw123456");
    try reflexivity; try discriminate.
  constructor.
Defined.

Lemma POST_duplicate_email_conflict_witness :
  fst (POST demo_kdf (quiet_env sam) sam_world) = Normal conflict_409
  /\ db (snd (POST demo_kdf (quiet_env sam) sam_world)) = db sam_world
  /\ store_log (snd (POST demo_kdf (quiet_env sam) sam_world))
     = [OpFindUnique (Some (JStr "sam@x.com"))]
  /\ count_email "sam@x.com" (db (snd (POST demo_kdf (quiet_env sam) sam_world))) = 1
  /\ (forall env', unique_emails (db (snd (POST demo_kdf env' sam_world)))).
Proof.
  apply (POST_duplicate_email_conflict demo_kdf (quiet_env sam) sam_world sam
           "sam@x.com" sam_row);
    try reflexivity; try discriminate.
  - repeat constructor. simpl. tauto.
  - left. reflexivity.
Defined.

Lemma POST_missing_field_witness :
  POST demo_kdf (quiet_env incomplete_request) sam_world
  = (Normal validation_400, sam_world).
Proof.
  apply (POST_missing_field demo_kdf (quiet_env incomplete_request) sam_world
           incomplete_request);
    [reflexivity | discriminate | right; right; left; reflexivity].
Defined.

Lemma store_conflict_is_database_error_witness :
  fst (try_block demo_kdf race_env empty_world) = Throw unique_constraint_error
  /\ fst (POST demo_kdf race_env empty_world) = Normal database_500
  /\ db (snd (POST demo_kdf race_env empty_world))
     = commit_concurrent (concurrent race_env) (db empty_world).
Proof.
  apply (store_conflict_is_database_error demo_kdf race_env empty_world sam
           "Sam" "sam@x.com" "pw123456");
    try reflexivity; try discriminate.
Defined.

(** C4, as stated, fails: the insert is rejected for the uniqueness of
    the email and the answer is the 500 database error, not the 409
    conflict. *)
Lemma store_conflict_not_409 :
  fst (prisma_user_findUnique race_env (Some (JStr "sam@x.com")) empty_world)
  = Normal None
  /\ fst (try_block demo_kdf race_env empty_world) = Throw unique_constraint_error
  /\ fst (POST demo_kdf race_env empty_world) = Normal database_500
  /\ fst (POST demo_kdf race_env empty_world) <> Normal conflict_409.
Proof. repeat split. discriminate. Qed.

Lemma stored_record_fields_witness :
  exists v n e p u,
    request_body (quiet_env sam) = Normal v
    /\ get_prop v "name" = Some (JStr n)
    /\ get_prop v "email" = Some (JStr e)
    /\ get_prop v "password" = Some (JStr p)
    /\ db (snd (POST demo_kdf (quiet_env sam) empty_world))
       = (commit_concurrent (concurrent (quiet_env sam)) (db empty_world) ++ [u])%list
    /\ user_name u = n
    /\ user_email u = e
    /\ user_hashedPassword u = demo_kdf p 10 (bcrypt_salt (quiet_env sam))
    /\ (In p [user_name u; user_email u; user_hashedPassword u] ->
        n = p \/ e = p \/ demo_kdf p 10 (bcrypt_salt (quiet_env sam)) = p)
    /\ (forall env' v' p',
           request_body env' = Normal v' ->
           get_prop v' "name" = Some (JStr n) ->
           get_prop v' "email" = Some (JStr e) ->
           get_prop v' "password" = Some (JStr p') -> p' <> EmptyString ->
           find_fault env' = find_fault (quiet_env sam) ->
           create_fault env' = create_fault (quiet_env sam) ->
           concurrent env' = concurrent (quiet_env sam) ->
           bcrypt_salt env' = bcrypt_salt (quiet_env sam) ->
           demo_kdf p' 10 (bcrypt_salt (quiet_env sam))
           = demo_kdf p 10 (bcrypt_salt (quiet_env sam)) ->
           POST demo_kdf env' empty_world = POST demo_kdf (quiet_env sam) empty_world).
Proof.
  apply (stored_record_fields demo_kdf (quiet_env sam) empty_world registered_201);
    reflexivity.
Defined.

(** C5, as stated, fails: the caller who sends the same text as name and
    as password is registered, and the name field of the stored record
    is the plaintext password. *)
Lemma stored_name_is_plaintext :
  get_prop careless "password" = Some (JStr "pw123456")
  /\ fst (POST demo_kdf (quiet_env careless) empty_world) = Normal registered_201
  /\ exists u,
      db (snd (POST demo_kdf (quiet_env careless) empty_world)) = [u]
      /\ In "pw123456" [user_name u; user_email u; user_hashedPassword u].
Proof.
  repeat split. eexists. split; [reflexivity |]. left. reflexivity.
Qed.

Lemma store_unavailable_configuration_error_witness :
  fst (POST demo_kdf down_env sam_world) = Normal configuration_500
  /\ db (snd (POST demo_kdf down_env sam_world)) = db sam_world
  /\ store_log (snd (POST demo_kdf down_env sam_world))
     = [OpFindUnique (Some (JStr "sam@x.com"))].
Proof.
  apply (store_unavailable_configuration_error demo_kdf down_env sam_world sam
           initialization_error);
    try reflexivity.
  left. reflexivity.
Defined.

Lemma unparseable_body_unexpected_error_witness :
  POST demo_kdf empty_body_env sam_world
  = (Normal unexpected_500, logged empty_body_error sam_world).
Proof.
  apply (unparseable_body_unexpected_error demo_kdf empty_body_env sam_world
           empty_body_error);
    reflexivity.
Defined.

(** C8, as stated, fails: the body [DATABASE_URL] is not parseable, the
    parser's message quotes it, and the answer is the configuration
    error instead of the generic fallback. *)
Lemma unparseable_body_configuration_error :
  request_body unparseable_env = Throw json_syntax_error
  /\ fst (POST demo_kdf unparseable_env empty_world) = Normal configuration_500
  /\ fst (POST demo_kdf unparseable_env empty_world) <> Normal unexpected_500.
Proof. repeat split. discriminate. Qed.



Lemma catch_classifies_by_name_and_text_witness :
  (err_name json_syntax_error = "PrismaClientInitializationError"
   \/ includes (err_message json_syntax_error) "DATABASE_URL" = true ->
   fst (POST demo_kdf unparseable_env empty_world) = Normal configuration_500)
  /\ (err_name json_syntax_error <> "PrismaClientInitializationError" ->
      includes (err_message json_syntax_error) "DATABASE_URL" = false ->
      (startsWith (err_constructor_name json_syntax_error) "PrismaClient" = true ->
       fst (POST demo_kdf unparseable_env empty_world) = Normal database_500)
      /\ (startsWith (err_constructor_name json_syntax_error) "PrismaClient" = false ->
          fst (POST demo_kdf unparseable_env empty_world) = Normal unexpected_500)).
Proof.
  apply (catch_classifies_by_name_and_text demo_kdf unparseable_env empty_world
           empty_world json_syntax_error).
  reflexivity.
Defined.

(** ** Every path of the handler *)

Section Paths.

Variable bcrypt_kdf : string -> nat -> string -> string.

Lemma fields_fail_inv (a b c : JsValue) :
  js_not a || js_not b || js_not c = true ->
  truthy a = false \/ truthy b = false \/ truthy c = false.
Proof.
  unfold js_not.
  destruct (truthy a), (truthy b), (truthy c); simpl; intros H;
    try discriminate; auto.
Qed.

Lemma fields_fail (a b c : JsValue) :
  truthy a = false \/ truthy b = false \/ truthy c = false ->
  js_not a || js_not b || js_not c = true.
Proof.
  unfold js_not. intros [-> | [-> | ->]]; simpl; now rewrite ?orb_true_r.
Qed.

Ltac decide_test H :=
  match type of H with
  | true = true <-> ?A => assert A by (apply H; reflexivity)
  | false = true <-> ?A =>
      assert (~ A) by (let a := fresh in intros a; apply H in a; discriminate)
  end;
  clear H.

Ltac two_ops :=
  right; right; do 2 eexists; split; [| reflexivity]; reflexivity.

(** The four ways the [try] block ends, with what each leaves behind. *)
Lemma try_block_outcomes (env : Env) (w : World) :
  let rows := commit_concurrent (concurrent env) (db w) in
  (exists v,
      request_body env = Normal v /\ v <> JNull
      /\ (truthy (get_prop v "name") = false
          \/ truthy (get_prop v "email") = false
          \/ truthy (get_prop v "password") = false)
      /\ try_block bcrypt_kdf env w = (Normal validation_400, w))
  \/ (exists v e u,
         request_body env = Normal v
         /\ get_prop v "email" = Some (JStr e)
         /\ find_by_email e (db w) = Some u
         /\ try_block bcrypt_kdf env w
            = (Normal conflict_409, log_op (OpFindUnique (Some (JStr e))) w))
  \/ (exists v n e p,
         request_body env = Normal v
         /\ get_prop v "name" = Some (JStr n)
         /\ get_prop v "email" = Some (JStr e)
         /\ get_prop v "password" = Some (JStr p)
         /\ find_by_email e (db w) = None
         /\ try_block bcrypt_kdf env w
            = (Normal registered_201,
               mkWorld (rows ++ [mkUser (fresh_id rows) n e
                                   (bcrypt_kdf p 10 (bcrypt_salt env))])%list
                       (store_log w
                          ++ [OpFindUnique (Some (JStr e));
                              OpCreate (user_data n e (bcrypt_kdf p 10 (bcrypt_salt env)))])%list
                       (console w)))
  \/ (exists err w1,
         try_block bcrypt_kdf env w = (Throw err, w1)
         /\ console w1 = console w
         /\ (db w1 = db w \/ db w1 = rows)
         /\ exists ops, store_log w1 = (store_log w ++ ops)%list /\ one_invocation ops).
Proof.
  intros rows.
  destruct (request_body env) as [v | err] eqn:Hbody.
  2:{ right; right; right. exists err, w. repeat split; auto.
      - unfold try_block, bind, req_json. now rewrite Hbody.
      - exists []. rewrite app_nil_r. split; [reflexivity | now left]. }
  assert (Hnull : v = JNull \/ v <> JNull)
    by (destruct v; [now left | right; discriminate ..]).
  destruct Hnull as [-> | Hnn].
  { right; right; right. exists destructure_null_error, w. repeat split; auto.
    - unfold try_block, bind, req_json. now rewrite Hbody.
    - exists []. rewrite app_nil_r. split; [reflexivity | now left]. }
  rewrite (try_block_parsed bcrypt_kdf env w v Hbody Hnn). cbv zeta.
  destruct (js_not (get_prop v "name") || js_not (get_prop v "email")
            || js_not (get_prop v "password")) eqn:Hval.
  { left. exists v. repeat split; auto using fields_fail_inv. }
  right. apply fields_pass_inv in Hval as (Hn & He & Hp).
  unfold prisma_user_findUnique.
  destruct (find_fault env) as [err |] eqn:Hff.
  { right; right. exists err, (log_op (OpFindUnique (get_prop v "email")) w).
    repeat split; auto.
    exists [OpFindUnique (get_prop v "email")]. split; [reflexivity |].
    right; left; eauto. }
  destruct (get_prop v "email") as [[| b' | q' | e | items' | props'] |] eqn:Hemail;
    try discriminate;
    try (right; right; eexists (PrismaClientValidationError _), _;
         repeat split; auto;
         eexists [OpFindUnique _]; split; [reflexivity | right; left; eauto]).
  simpl db.
  destruct (find_by_email e (db w)) as [u |] eqn:Hfind.
  { left. exists v, e, u. repeat split; auto. }
  right.
  unfold bcrypt_hash.
  destruct (get_prop v "password") as [[| b' | q' | p | items' | props'] |] eqn:Hpw;
    try discriminate;
    try (right; eexists _, _; repeat split; auto;
         eexists [OpFindUnique _]; split; [reflexivity | right; left; eauto]).
  unfold ret, prisma_user_create.
  destruct (create_fault env) as [err |] eqn:Hcf.
  { right. eexists err, _. repeat split; auto.
    eexists [OpFindUnique _; OpCreate _]. split;
      [simpl; now rewrite <- app_assoc | two_ops]. }
  simpl.
  destruct (get_prop v "name") as [[| b' | q' | n | items' | props'] |] eqn:Hname;
    try discriminate;
    try (right; eexists (PrismaClientValidationError _), _; repeat split; auto;
         eexists [OpFindUnique _; OpCreate _]; split;
         [simpl; now rewrite <- app_assoc | two_ops]).
  fold rows.
  destruct (insert_row n e (bcrypt_kdf p 10 (bcrypt_salt env)) rows) as [rows' |] eqn:Hins.
  2:{ right. eexists unique_constraint_error, _. repeat split; auto.
      eexists [OpFindUnique _; OpCreate _]. split;
        [simpl; now rewrite <- app_assoc | two_ops]. }
  left. exists v, n, e, p. repeat split; auto.
  unfold insert_row in Hins.
  destruct (find_by_email e rows); [discriminate |].
  injection Hins as <-. unfold set_db, log_op, user_data. simpl.
  now rewrite <- app_assoc.
Qed.

Lemma POST_outcome_normal (env : Env) (w w1 : World) (r : Response) :
  try_block bcrypt_kdf env w = (Normal r, w1) ->
  fst (POST bcrypt_kdf env w) = Normal r /\ snd (POST bcrypt_kdf env w) = w1.
Proof. intros H. now rewrite (POST_normal bcrypt_kdf env w w1 r H). Qed.

Lemma POST_outcome_throw (env : Env) (w w1 : World) (err : JsError) :
  try_block bcrypt_kdf env w = (Throw err, w1) ->
  fst (POST bcrypt_kdf env w) = Normal (error_response err)
  /\ snd (POST bcrypt_kdf env w) = logged err w1.
Proof. intros H. now rewrite (POST_throw bcrypt_kdf env w w1 err H). Qed.

Lemma error_response_not (r : Response) (err : JsError) :
  status r <> 500 -> Normal (error_response err) <> Normal r.
Proof.
  intros Hst [= <-]. apply Hst, error_response_status.
Qed.

Lemma commit_concurrent_extends (cs : list (string * string * string)) :
  forall rows, exists added, commit_concurrent cs rows = (rows ++ added)%list.
Proof.
  induction cs as [| [[n e] h] cs IH]; simpl; intros rows.
  - exists []. now rewrite app_nil_r.
  - destruct (insert_row n e h rows) as [rows' |] eqn:Hins; [| apply IH].
    unfold insert_row in Hins.
    destruct (find_by_email e rows); [discriminate |]. injection Hins as <-.
    destruct (IH (rows ++ [mkUser (fresh_id rows) n e h])%list) as [added Hadd].
    exists ([mkUser (fresh_id rows) n e h] ++ added)%list.
    now rewrite Hadd, <- app_assoc.
Qed.

Lemma find_by_email_last (e : string) (rows : list User) (u : User) :
  find_by_email e rows = None -> user_email u = e ->
  find_by_email e (rows ++ [u]) = Some u.
Proof.
  unfold find_by_email. intros Hnone Hu.
  induction rows as [| x rows IH]; simpl in *.
  - now rewrite Hu, String.eqb_refl.
  - destruct (String.eqb (user_email x) e); [discriminate | now apply IH].
Qed.

Lemma unique_emails_at_most_one (rows : list User) (e : string) :
  unique_emails rows -> count_email e rows <= 1.
Proof.
  intros Hu. destruct (find_by_email e rows) as [u |] eqn:Hfind.
  - apply find_by_email_some in Hfind as [Hin <-].
    now rewrite unique_emails_count.
  - apply find_by_email_none in Hfind. lia.
Qed.

(** *** Substrings *)

Lemma prefix_spec (p s : string) :
  String.prefix p s = true <-> exists rest, s = p ++ rest.
Proof.
  revert s. induction p as [| c p IH]; intros s; simpl.
  - split; [intros _; now exists s | intros _; destruct s; reflexivity].
  - destruct s as [| c' s]; [split; [discriminate | intros [rest H]; discriminate] |].
    simpl. destruct (Ascii.ascii_dec c c') as [Heq | Hne].
    + subst c'. rewrite IH. split; intros [rest H]; exists rest; congruence.
    + split; [discriminate | intros [rest H]; congruence].
Qed.

Lemma includes_spec (s sub : string) :
  includes s sub = true <-> exists pre post, s = pre ++ sub ++ post.
Proof.
  induction s as [| c s IH]; cbn [includes].
  - rewrite orb_false_r, prefix_spec. split.
    + intros [rest H]. now exists EmptyString, rest.
    + intros [pre [post H]]. destruct pre; [now exists post | discriminate].
  - rewrite orb_true_iff, prefix_spec, IH. split.
    + intros [[rest H] | [pre [post H]]].
      * now exists EmptyString, rest.
      * exists (String c pre), post. simpl. now rewrite H.
    + intros [pre [post H]]. destruct pre as [| c' pre]; simpl in H.
      * left. now exists post.
      * right. exists pre, post. congruence.
Qed.

(** ** Validation *)

(** X1. The 400 answer is given exactly when the body parsed to a value
    that can be destructured and one of name, email, password is falsy
    (missing, [null], [false], zero or the empty string); it is given
    before anything else happens, so the world is as it was, whatever
    the state of the store. *)
Theorem validation_iff_falsy_field (env : Env) (w : World) :
  (fst (POST bcrypt_kdf env w) = Normal validation_400 <->
   exists v,
     request_body env = Normal v /\ v <> JNull
     /\ (truthy (get_prop v "name") = false
         \/ truthy (get_prop v "email") = false
         \/ truthy (get_prop v "password") = false))
  /\ (fst (POST bcrypt_kdf env w) = Normal validation_400 ->
      snd (POST bcrypt_kdf env w) = w).
Proof.
  destruct (try_block_outcomes env w)
    as [(v & Hbody & Hnn & Hfalsy & Htb)
       | [(v & e & u & Hbody & He & Hfind & Htb)
         | [(v & n & e & p & Hbody & Hn & He & Hp & Hfind & Htb)
           | (err & w1 & Htb & _)]]].
  - destruct (POST_outcome_normal _ _ _ _ Htb) as [-> ->].
    split; [split; [intros _; now exists v | reflexivity] | reflexivity].
  - destruct (POST_outcome_normal _ _ _ _ Htb) as [-> _].
    split; [split; [discriminate |] | discriminate].
    intros (v' & Hbody' & Hnn' & Hfalsy). exfalso.
    rewrite (try_block_parsed bcrypt_kdf env w v' Hbody' Hnn') in Htb.
    cbv zeta in Htb. rewrite (fields_fail _ _ _ Hfalsy) in Htb. discriminate.
  - destruct (POST_outcome_normal _ _ _ _ Htb) as [-> _].
    split; [split; [discriminate |] | discriminate].
    intros (v' & Hbody' & Hnn' & Hfalsy). exfalso.
    rewrite (try_block_parsed bcrypt_kdf env w v' Hbody' Hnn') in Htb.
    cbv zeta in Htb. rewrite (fields_fail _ _ _ Hfalsy) in Htb. discriminate.
  - destruct (POST_outcome_throw _ _ _ _ Htb) as [-> _].
    assert (Hne : Normal (error_response err) <> Normal validation_400)
      by (apply error_response_not; discriminate).
    split; [split; [intros H; now destruct Hne |] | intros H; now destruct Hne].
    intros (v' & Hbody' & Hnn' & Hfalsy). exfalso.
    rewrite (try_block_parsed bcrypt_kdf env w v' Hbody' Hnn') in Htb.
    cbv zeta in Htb. rewrite (fields_fail _ _ _ Hfalsy) in Htb. discriminate.
Qed.

(** X2. A body that parses to something other than an object or [null]
    (an array, a string, a number, a boolean) has none of the three
    fields: the answer is 400 and the world is untouched. *)
Theorem non_object_body_rejected (env : Env) (w : World) (v : Json) :
  request_body env = Normal v -> v <> JNull ->
  (forall props, v <> JObj props) ->
  POST bcrypt_kdf env w = (Normal validation_400, w).
Proof.
  intros Hbody Hnn Hobj. apply POST_normal.
  rewrite (try_block_parsed bcrypt_kdf env w v Hbody Hnn). cbv zeta.
  assert (Hname : get_prop v "name" = None).
  { destruct v; try reflexivity. now destruct (Hobj props). }
  now rewrite Hname.
Qed.

(** X3. A body that cannot be read ([req.json()] rejects, or the body
    is the literal [null], whose destructuring throws) is answered with
    a 500 chosen by the [catch] block (the generic one for [null]); the
    error is written to the console once and the store is neither read
    nor written. *)
Theorem unreadable_body_500 (env : Env) (w : World) :
  request_body env = Normal JNull \/ (exists err, request_body env = Throw err) ->
  exists err,
    POST bcrypt_kdf env w = (Normal (error_response err), logged err w)
    /\ status (error_response err) = 500
    /\ (request_body env = Throw err \/ err = destructure_null_error)
    /\ (request_body env = Normal JNull -> error_response err = unexpected_500).
Proof.
  intros [Hnull | [err Hbody]].
  - exists destructure_null_error. repeat split; auto.
    apply POST_throw. unfold try_block, bind, req_json. now rewrite Hnull.
  - exists err. repeat split; auto using error_response_status.
    + apply POST_throw. unfold try_block, bind, req_json. now rewrite Hbody.
    + intros H. congruence.
Qed.

(** ** Conflict *)

(** X4. The 409 answer is only given when the body carries a string
    email and the store holds an Account with exactly that address; the
    run then consists of the lookup alone. *)
Theorem conflict_only_for_registered_email (env : Env) (w : World) :
  fst (POST bcrypt_kdf env w) = Normal conflict_409 ->
  exists v e u,
    request_body env = Normal v
    /\ get_prop v "email" = Some (JStr e)
    /\ In u (db w) /\ user_email u = e
    /\ snd (POST bcrypt_kdf env w) = log_op (OpFindUnique (Some (JStr e))) w.
Proof.
  intros Hrun.
  destruct (try_block_outcomes env w)
    as [(v & Hbody & Hnn & Hfalsy & Htb)
       | [(v & e & u & Hbody & He & Hfind & Htb)
         | [(v & n & e & p & Hbody & Hn & He & Hp & Hfind & Htb)
           | (err & w1 & Htb & _)]]].
  - destruct (POST_outcome_normal _ _ _ _ Htb) as [H _]. rewrite H in Hrun.
    discriminate.
  - destruct (POST_outcome_normal _ _ _ _ Htb) as [_ H].
    apply find_by_email_some in Hfind as [Hin Hu].
    exists v, e, u. repeat split; assumption.
  - destruct (POST_outcome_normal _ _ _ _ Htb) as [H _]. rewrite H in Hrun.
    discriminate.
  - destruct (POST_outcome_throw _ _ _ _ Htb) as [H _]. rewrite H in Hrun.
    exfalso. revert Hrun. apply error_response_not. discriminate.
Qed.

(** ** What one invocation leaves behind *)

(** X5. The rows after an invocation are the rows before it, followed
    by what other sessions committed, followed by this request's own row
    exactly when the answer is 201.  Existing rows are never altered or
    removed, and a request answered with 400, 409 or 500 adds no row. *)
Theorem rows_after_request (env : Env) (w : World) :
  let rows := commit_concurrent (concurrent env) (db w) in
  let w' := snd (POST bcrypt_kdf env w) in
  exists r,
    fst (POST bcrypt_kdf env w) = Normal r
    /\ ((status r = 201 /\ exists u, db w' = (rows ++ [u])%list)
        \/ (status r <> 201 /\ (db w' = db w \/ db w' = rows)))
    /\ exists added, db w' = (db w ++ added)%list.
Proof.
  intros rows w'. subst w'.
  destruct (commit_concurrent_extends (concurrent env) (db w)) as [others Hothers].
  fold rows in Hothers.
  destruct (try_block_outcomes env w)
    as [(v & Hbody & Hnn & Hfalsy & Htb)
       | [(v & e & u & Hbody & He & Hfind & Htb)
         | [(v & n & e & p & Hbody & Hn & He & Hp & Hfind & Htb)
           | (err & w1 & Htb & Hcons & Hdb & _)]]].
  - destruct (POST_outcome_normal _ _ _ _ Htb) as [-> ->].
    exists validation_400. repeat split.
    + right. split; [discriminate | now left].
    + exists []. now rewrite app_nil_r.
  - destruct (POST_outcome_normal _ _ _ _ Htb) as [-> ->].
    exists conflict_409. repeat split.
    + right. split; [discriminate | now left].
    + exists []. simpl. now rewrite app_nil_r.
  - destruct (POST_outcome_normal _ _ _ _ Htb) as [-> ->].
    exists registered_201. repeat split.
    + left. split; [reflexivity | simpl; eauto].
    + simpl. fold rows. rewrite Hothers, <- app_assoc. eauto.
  - destruct (POST_outcome_throw _ _ _ _ Htb) as [-> ->].
    exists (error_response err). repeat split.
    + right. rewrite error_response_status. split; [discriminate | exact Hdb].
    + simpl. destruct Hdb as [-> | ->]; [exists []; now rewrite app_nil_r | eauto].
Qed.

(** X6. One invocation adds to the store log nothing, or one lookup, or
    one lookup followed by one insert for the address that was looked
    up: never an insert without the lookup before it, never a second
    attempt. *)
Theorem store_operations_of_one_invocation (env : Env) (w : World) :
  exists ops,
    store_log (snd (POST bcrypt_kdf env w)) = (store_log w ++ ops)%list
    /\ one_invocation ops.
Proof.
  destruct (try_block_outcomes env w)
    as [(v & Hbody & Hnn & Hfalsy & Htb)
       | [(v & e & u & Hbody & He & Hfind & Htb)
         | [(v & n & e & p & Hbody & Hn & He & Hp & Hfind & Htb)
           | (err & w1 & Htb & Hcons & Hdb & ops & Hlog & Hops)]]].
  - destruct (POST_outcome_normal _ _ _ _ Htb) as [_ ->].
    exists []. rewrite app_nil_r. split; [reflexivity | now left].
  - destruct (POST_outcome_normal _ _ _ _ Htb) as [_ ->].
    eexists [OpFindUnique _]. split; [reflexivity | right; left; eauto].
  - destruct (POST_outcome_normal _ _ _ _ Htb) as [_ ->].
    eexists [OpFindUnique _; OpCreate _]. split; [reflexivity | two_ops].
  - destruct (POST_outcome_throw _ _ _ _ Htb) as [_ ->].
    exists ops. split; assumption.
Qed.

(** X7. The console receives an entry exactly on the 500 answers: the
    caught error, once.  The 201, 400 and 409 answers write nothing to
    it. *)
Theorem console_after_request (env : Env) (w : World) :
  let w' := snd (POST bcrypt_kdf env w) in
  exists r,
    fst (POST bcrypt_kdf env w) = Normal r
    /\ ((status r = 500
         /\ exists err, r = error_response err
                        /\ console w' = (console w ++ [err])%list)
        \/ (status r <> 500 /\ console w' = console w)).
Proof.
  intros w'. subst w'.
  destruct (try_block_outcomes env w)
    as [(v & Hbody & Hnn & Hfalsy & Htb)
       | [(v & e & u & Hbody & He & Hfind & Htb)
         | [(v & n & e & p & Hbody & Hn & He & Hp & Hfind & Htb)
           | (err & w1 & Htb & Hcons & _)]]].
  - destruct (POST_outcome_normal _ _ _ _ Htb) as [-> ->].
    exists validation_400. split; [reflexivity | right].
    split; [discriminate | reflexivity].
  - destruct (POST_outcome_normal _ _ _ _ Htb) as [-> ->].
    exists conflict_409. split; [reflexivity | right].
    split; [discriminate | reflexivity].
  - destruct (POST_outcome_normal _ _ _ _ Htb) as [-> ->].
    exists registered_201. split; [reflexivity | right].
    split; [discriminate | reflexivity].
  - destruct (POST_outcome_throw _ _ _ _ Htb) as [-> ->].
    exists (error_response err). split; [reflexivity | left].
    split; [apply error_response_status |].
    exists err. split; [reflexivity |]. simpl. now rewrite Hcons.
Qed.

(** ** Requests in sequence *)

Lemma POST_conflict_run (env : Env) (w : World) (v : Json) (e : string) (u : User) :
  request_body env = Normal v ->
  truthy (get_prop v "name") = true ->
  get_prop v "email" = Some (JStr e) -> e <> EmptyString ->
  truthy (get_prop v "password") = true ->
  find_fault env = None ->
  find_by_email e (db w) = Some u ->
  POST bcrypt_kdf env w
  = (Normal conflict_409, log_op (OpFindUnique (Some (JStr e))) w).
Proof.
  intros Hbody Hn He He0 Hp Hff Hfind. apply POST_normal.
  rewrite (try_block_parsed bcrypt_kdf env w v Hbody (truthy_not_null _ _ Hn)).
  cbv zeta. rewrite truthy_fields_pass;
    [| assumption | rewrite He; now apply truthy_string | assumption].
  rewrite He. unfold prisma_user_findUnique. rewrite Hff. simpl db.
  now rewrite Hfind.
Qed.

(** X8. Registration followed by lookup.  After a request has been
    answered 201, the lookup of its email finds the row that carries its
    name and the hash of its password, so a later request with the same
    email (whatever its name and password, the lookup answering) is
    answered 409 and leaves the rows as the first request left them. *)
Theorem register_then_duplicate (env1 env2 : Env) (w : World) (v1 v2 : Json)
        (n e p : string) :
  request_body env1 = Normal v1 ->
  get_prop v1 "name" = Some (JStr n) -> n <> EmptyString ->
  get_prop v1 "email" = Some (JStr e) -> e <> EmptyString ->
  get_prop v1 "password" = Some (JStr p) -> p <> EmptyString ->
  find_fault env1 = None -> create_fault env1 = None ->
  count_email e (db w) = 0 ->
  Forall (fun c => snd (fst c) <> e) (concurrent env1) ->
  request_body env2 = Normal v2 ->
  truthy (get_prop v2 "name") = true ->
  get_prop v2 "email" = Some (JStr e) ->
  truthy (get_prop v2 "password") = true ->
  find_fault env2 = None ->
  let w1 := snd (POST bcrypt_kdf env1 w) in
  fst (POST bcrypt_kdf env1 w) = Normal registered_201
  /\ (exists u, find_by_email e (db w1) = Some u
                /\ user_name u = n
                /\ user_hashedPassword u = bcrypt_kdf p 10 (bcrypt_salt env1))
  /\ fst (POST bcrypt_kdf env2 w1) = Normal conflict_409
  /\ db (snd (POST bcrypt_kdf env2 w1)) = db w1.
Proof.
  intros Hbody Hn Hn0 He He0 Hp Hp0 Hff Hcf Hcount Hconc
         Hbody2 Hn2 He2 Hp2 Hff2 w1.
  assert (Hrows : count_email e (commit_concurrent (concurrent env1) (db w)) = 0)
    by now rewrite commit_concurrent_count.
  pose proof (POST_accepted bcrypt_kdf env1 w v1 n e p Hbody Hn Hn0 He He0 Hp Hp0
                Hff Hcf Hcount Hrows) as Hrun.
  cbv zeta in Hrun. subst w1. rewrite Hrun. simpl fst. simpl snd.
  set (rows := commit_concurrent (concurrent env1) (db w)) in *.
  set (u := mkUser (fresh_id rows) n e (bcrypt_kdf p 10 (bcrypt_salt env1))).
  assert (Hfound : find_by_email e (rows ++ [u]) = Some u).
  { apply find_by_email_last; [now apply find_by_email_none | reflexivity]. }
  split; [reflexivity |].
  split; [exists u; repeat split; exact Hfound |].
  rewrite (POST_conflict_run env2 _ v2 e u); auto.
Qed.

(** X9. The invariant over histories: from a store with at most one
    Account per email (the empty store, for one), any sequence of
    requests, each in any surroundings, leaves at most one Account for
    every email. *)
Theorem emails_unique_throughout (envs : list Env) (w : World) (e : string) :
  unique_emails (db w) ->
  count_email e (db (handle_all (POST bcrypt_kdf) envs w)) <= 1.
Proof.
  revert w. induction envs as [| env envs IH]; intros w Hu; simpl.
  - now apply unique_emails_at_most_one.
  - apply IH. now apply (POST_unique_emails bcrypt_kdf env).
Qed.

(** ** The [catch] block in terms of the error's text *)

(** X10. When the [try] block throws, the configuration error is
    answered exactly when the error is named
    [PrismaClientInitializationError] or [DATABASE_URL] occurs somewhere
    in its message; the database error is answered exactly when neither
    holds and the constructor's name begins with [PrismaClient]. *)
Theorem answer_by_error_text (env : Env) (w w1 : World) (err : JsError) :
  try_block bcrypt_kdf env w = (Throw err, w1) ->
  (fst (POST bcrypt_kdf env w) = Normal configuration_500 <->
   err_name err = "PrismaClientInitializationError"
   \/ exists pre post, err_message err = pre ++ "DATABASE_URL" ++ post)
  /\ (fst (POST bcrypt_kdf env w) = Normal database_500 <->
      err_name err <> "PrismaClientInitializationError"
      /\ ~ (exists pre post, err_message err = pre ++ "DATABASE_URL" ++ post)
      /\ exists rest, err_constructor_name err = "PrismaClient" ++ rest).
Proof.
  intros Htb. destruct (POST_outcome_throw _ _ _ _ Htb) as [-> _].
  rewrite error_response_tests.
  assert (HN : names_initialization err = true
               <-> err_name err = "PrismaClientInitializationError")
    by apply String.eqb_eq.
  assert (HM : mentions_DATABASE_URL err = true
               <-> exists pre post, err_message err = pre ++ "DATABASE_URL" ++ post)
    by apply includes_spec.
  assert (HC : constructed_by_PrismaClient err = true
               <-> exists rest, err_constructor_name err = "PrismaClient" ++ rest)
    by apply prefix_spec.
  destruct (names_initialization err), (mentions_DATABASE_URL err),
    (constructed_by_PrismaClient err); simpl;
    decide_test HN; decide_test HM; decide_test HC;
    (split;
     (split;
      [ intros Heq; first [discriminate Heq | tauto]
      | intros Hr; first [reflexivity | exfalso; tauto] ])).
Qed.

(** ** Accounts already registered *)

Lemma rows_kept (env : Env) (w : World) :
  exists added, db (snd (POST bcrypt_kdf env w)) = (db w ++ added)%list.
Proof.
  destruct (commit_concurrent_extends (concurrent env) (db w)) as [others Hothers].
  destruct (try_block_outcomes env w)
    as [(v & Hbody & Hnn & Hfalsy & Htb)
       | [(v & e & u & Hbody & He & Hfind & Htb)
         | [(v & n & e & p & Hbody & Hn & He & Hp & Hfind & Htb)
           | (err & w1 & Htb & Hcons & Hdb & _)]]].
  - destruct (POST_outcome_normal _ _ _ _ Htb) as [_ ->].
    exists []. now rewrite app_nil_r.
  - destruct (POST_outcome_normal _ _ _ _ Htb) as [_ ->].
    exists []. simpl. now rewrite app_nil_r.
  - destruct (POST_outcome_normal _ _ _ _ Htb) as [_ ->].
    simpl. rewrite Hothers, <- app_assoc. eauto.
  - destruct (POST_outcome_throw _ _ _ _ Htb) as [_ ->].
    simpl. destruct Hdb as [-> | ->]; [exists []; now rewrite app_nil_r | eauto].
Qed.

Lemma find_by_email_app (e : string) (rows added : list User) (u : User) :
  find_by_email e rows = Some u -> find_by_email e (rows ++ added) = Some u.
Proof.
  unfold find_by_email. induction rows as [| x rows IH]; simpl; [discriminate |].
  destruct (String.eqb (user_email x) e); [trivial | exact IH].
Qed.

(** X11. An Account that the lookup finds before an invocation is found
    by the same lookup after it, whatever the request and however it
    ends: no request replaces or hides a registered address. *)
Theorem registered_account_stays_found (env : Env) (w : World) (e : string)
        (u : User) :
  find_by_email e (db w) = Some u ->
  find_by_email e (db (snd (POST bcrypt_kdf env w))) = Some u.
Proof.
  intros Hfind.
  destruct (rows_kept env w) as [added ->].
  now apply find_by_email_app.
Qed.

End Paths.

(** ** The further theorems at concrete requests *)

Lemma non_object_body_rejected_witness :
  POST demo_kdf (quiet_env array_body) sam_world = (Normal validation_400, sam_world).
Proof.
  apply (non_object_body_rejected demo_kdf (quiet_env array_body) sam_world array_body);
    [reflexivity | discriminate | intros props; discriminate].
Defined.

Lemma unreadable_body_500_witness :
  exists err,
    POST demo_kdf (quiet_env JNull) sam_world
    = (Normal (error_response err), logged err sam_world)
    /\ status (error_response err) = 500
    /\ (request_body (quiet_env JNull) = Throw err \/ err = destructure_null_error)
    /\ (request_body (quiet_env JNull) = Normal JNull ->
        error_response err = unexpected_500).
Proof.
  apply (unreadable_body_500 demo_kdf (quiet_env JNull) sam_world).
  left. reflexivity.
Defined.

Lemma conflict_only_for_registered_email_witness :
  exists v e u,
    request_body (quiet_env sam_again) = Normal v
    /\ get_prop v "email" = Some (JStr e)
    /\ In u (db sam_world) /\ user_email u = e
    /\ snd (POST demo_kdf (quiet_env sam_again) sam_world)
       = log_op (OpFindUnique (Some (JStr e))) sam_world.
Proof.
  apply (conflict_only_for_registered_email demo_kdf (quiet_env sam_again) sam_world).
  reflexivity.
Defined.

Lemma register_then_duplicate_witness :
  let w1 := snd (POST demo_kdf (quiet_env sam) empty_world) in
  fst (POST demo_kdf (quiet_env sam) empty_world) = Normal registered_201
  /\ (exists u, find_by_email "sam@x.com" (db w1) = Some u
                /\ user_name u = "Sam"
                /\ user_hashedPassword u
                   = demo_kdf "pw123456" 10 (bcrypt_salt (quiet_env sam)))
  /\ fst (POST demo_kdf (quiet_env sam_again) w1) = Normal conflict_409
  /\ db (snd (POST demo_kdf (quiet_env sam_again) w1)) = db w1.
Proof.
  apply (register_then_duplicate demo_kdf (quiet_env sam) (quiet_env sam_again)
           empty_world sam sam_again "Sam" "sam@x.com" "pw123456");
    try reflexivity; try discriminate.
  constructor.
Defined.

Lemma emails_unique_throughout_witness :
  count_email "sam@x.com" (db (handle_all (POST demo_kdf) sam_history empty_world)) <= 1.
Proof.
  apply (emails_unique_throughout demo_kdf sam_history empty_world "sam@x.com").
  constructor.
Defined.

Lemma answer_by_error_text_witness :
  (fst (POST demo_kdf down_env sam_world) = Normal configuration_500 <->
   err_name initialization_error = "PrismaClientInitializationError"
   \/ exists pre post, err_message initialization_error = pre ++ "DATABASE_URL" ++ post)
  /\ (fst (POST demo_kdf down_env sam_world) = Normal database_500 <->
      err_name initialization_error <> "PrismaClientInitializationError"
      /\ ~ (exists pre post,
               err_message initialization_error = pre ++ "DATABASE_URL" ++ post)
      /\ exists rest,
          err_constructor_name initialization_error = "PrismaClient" ++ rest).
Proof.
  apply (answer_by_error_text demo_kdf down_env sam_world
           (log_op (OpFindUnique (Some (JStr "sam@x.com"))) sam_world)
           initialization_error).
  reflexivity.
Defined.

Lemma registered_account_stays_found_witness :
  find_by_email "sam@x.com" (db (snd (POST demo_kdf (quiet_env sam_capital) sam_world)))
  = Some sam_row.
Proof.
  apply (registered_account_stays_found demo_kdf (quiet_env sam_capital) sam_world
           "sam@x.com" sam_row).
  reflexivity.
Defined.
